(** * Session state of the Telegram monitor: [bot/state.py]

    A shallow embedding of [SessionState] and [StateManager] and the
    properties of the state model: loading and saving, the tool counters,
    the bounded history of recent tools and the rendering of durations.

    Python is dynamically typed and a dataclass does not check the types
    of its fields, so a field of a loaded state holds whatever value the
    state file gave it.  Values are therefore kept dynamic ([pyval]), the
    operations of [state.py] on them raise where Python raises, and the
    declared types appear as a predicate ([well_typed]). *)

From Stdlib Require Import ZArith List String Ascii Bool Lia.
From Stdlib Require Import Floats.SpecFloat.
From Stdlib Require Import DecimalString.
Import ListNotations.

Local Open Scope string_scope.
Local Open Scope Z_scope.

Set Warnings "-register-all".

(** ** Exceptions and results *)

Module Py.

(** The exception classes that [state.py] can meet.  [JSONDecodeError]
    and [UnicodeDecodeError] are both subclasses of [ValueError] in
    Python, neither of the other; an [except] clause is modelled by the
    classes it lists. *)
Inductive exn : Type :=
| OSError
| UnicodeDecodeError
| JSONDecodeError
| TypeError
| AttributeError
| KeyError
| ValueError
| OverflowError.

Inductive result (A : Type) : Type :=
| Ok (a : A)
| Raise (e : exn).

Arguments Ok {A} a.
Arguments Raise {A} e.

Definition bind {A B : Type} (c : result A) (k : A -> result B) : result B :=
  match c with
  | Ok a => k a
  | Raise e => Raise e
  end.

(** [try: body / except classes: handler]. *)
Definition try_except {A : Type} (body : result A) (classes : exn -> bool)
    (handler : result A) : result A :=
  match body with
  | Ok a => Ok a
  | Raise e => if classes e then handler else Raise e
  end.

Definition returns {A : Type} (c : result A) : Prop := exists a, c = Ok a.

End Py.
Export Py.

Declare Scope py_scope.
Delimit Scope py_scope with py.
Notation "x <- c ;; k" := (bind c (fun x => k))
  (at level 61, c at next level, right associativity) : py_scope.
Local Open Scope py_scope.

(** ** Floats

    A Python [float] is an IEEE 754 binary64 number: [spec_float] with
    precision 53 and maximal exponent 1024.  [spec_float] has one NaN. *)

Definition float : Type := spec_float.
Definition prec : Z := 53.
Definition emax : Z := 1024.

Definition float_of_Z (n : Z) : float := binary_normalize prec emax n 0 false.
Definition fzero : float := S754_zero false.
Definition fone : float := float_of_Z 1.
Definition fadd : float -> float -> float := SFadd prec emax.
Definition fsub : float -> float -> float := SFsub prec emax.
Definition feqb : float -> float -> bool := SFeqb.
Definition fltb : float -> float -> bool := SFltb.

(** ** Values *)

(** The values a state can hold: what [json.load] produces, which is also
    what the manager itself stores.  A dict is kept as its items in
    insertion order; where a key occurs twice the later item is the live
    one, as [json.load] resolves duplicate keys. *)
Inductive pyval : Type :=
| VNone
| VBool (b : bool)
| VInt (n : Z)
| VFloat (f : float)
| VStr (s : string)
| VList (l : list pyval)
| VDict (d : list (string * pyval)).

Definition dict_get (k : string) (d : list (string * pyval)) : option pyval :=
  fold_left (fun found kv => if String.eqb (fst kv) k then Some (snd kv) else found)
            d None.

(** [bool(v)], as taken by [if v], [not v] and [v or w]. *)
Definition truthy (v : pyval) : bool :=
  match v with
  | VNone => false
  | VBool b => b
  | VInt n => negb (n =? 0)
  | VFloat f => negb (feqb f fzero)
  | VStr s => negb (String.eqb s EmptyString)
  | VList l => match l with [] => false | _ => true end
  | VDict d => match d with [] => false | _ => true end
  end.

(** [v == 0]. *)
Definition eq_zero (v : pyval) : bool :=
  match v with
  | VBool b => negb b
  | VInt n => n =? 0
  | VFloat f => feqb f fzero
  | _ => false
  end.

(** [v > 0], where it holds: an ordering against a value that is no
    number raises, and NaN is not greater than anything. *)
Definition gt_zero (v : pyval) : bool :=
  match v with
  | VBool b => b
  | VInt n => 0 <? n
  | VFloat f => fltb fzero f
  | _ => false
  end.

(** Numbers: [bool] is a subclass of [int]. *)
Inductive num : Type :=
| NInt (n : Z)
| NFloat (f : float).

Definition as_num (v : pyval) : option num :=
  match v with
  | VBool b => Some (NInt (if b then 1 else 0))
  | VInt n => Some (NInt n)
  | VFloat f => Some (NFloat f)
  | _ => None
  end.

Definition val_of_num (x : num) : pyval :=
  match x with
  | NInt n => VInt n
  | NFloat f => VFloat f
  end.

(** [float(n)] for an int: correctly rounded, [OverflowError] when out of
    range. *)
Definition int_to_float (n : Z) : result float :=
  match float_of_Z n with
  | S754_infinity _ => Raise OverflowError
  | f => Ok f
  end.

Definition num_binop (fi : Z -> Z -> Z) (ff : float -> float -> float)
    (x y : num) : result num :=
  match x, y with
  | NInt a, NInt b => Ok (NInt (fi a b))
  | NFloat a, NFloat b => Ok (NFloat (ff a b))
  | NInt a, NFloat b => a' <- int_to_float a ;; Ok (NFloat (ff a' b))
  | NFloat a, NInt b => b' <- int_to_float b ;; Ok (NFloat (ff a b'))
  end.

(** [v - w]: defined on numbers only. *)
Definition py_sub (v w : pyval) : result num :=
  match as_num v, as_num w with
  | Some x, Some y => num_binop Z.sub fsub x y
  | _, _ => Raise TypeError
  end.

(** [v += 1] as [state.py] uses it on a counter: numbers are incremented,
    everything else ([str], [None], [list], [dict]) raises [TypeError]. *)
Definition py_incr (v : pyval) : result pyval :=
  match as_num v with
  | Some x => r <- num_binop Z.add fadd x (NInt 1) ;; Ok (val_of_num r)
  | None => Raise TypeError
  end.

(** [int(x)] on a number: truncation toward zero; NaN and the infinities
    have no integer value. *)
Definition py_int (x : num) : result Z :=
  match x with
  | NInt n => Ok n
  | NFloat (S754_zero _) => Ok 0
  | NFloat (S754_finite s m e) => Ok (cond_Zopp s (Z.shiftl (Zpos m) e))
  | NFloat (S754_infinity _) => Raise OverflowError
  | NFloat S754_nan => Raise ValueError
  end.

(** [str(n)] for an int. *)
Definition str_of_Z (n : Z) : string := NilZero.string_of_int (Z.to_int n).

(** [v[:n]]: strings and lists can be sliced, nothing else (the class of
    the exception for a dict depends on the version of Python). *)
Definition py_prefix (n : nat) (v : pyval) : result pyval :=
  match v with
  | VStr s => Ok (VStr (substring 0 n s))
  | VList l => Ok (VList (firstn n l))
  | _ => Raise TypeError
  end.

(** [l[-n:]] on a list. *)
Definition last_n {A : Type} (n : nat) (l : list A) : list A :=
  skipn (List.length l - n)%nat l.

(** [v.append(x)]: only a list has the method. *)
Definition py_append (v x : pyval) : result (list pyval) :=
  match v with
  | VList l => Ok (l ++ [x])%list
  | _ => Raise AttributeError
  end.

(** [v['name']]. *)
Definition py_getitem (v : pyval) (k : string) : result pyval :=
  match v with
  | VDict d => match dict_get k d with
               | Some x => Ok x
               | None => Raise KeyError
               end
  | _ => Raise TypeError
  end.

(** ** [SessionState] *)

(** The dataclass.  Its fields are annotated [str], [str], [float],
    [Optional[float]], [bool], [int], [int], [int], [Optional[dict]],
    [list] and [float]; the annotations are not enforced. *)
Record SessionState : Type := mkSessionState {
  session_id : pyval;
  project_dir : pyval;
  start_time : pyval;
  end_time : pyval;
  is_active : pyval;
  total_tools : pyval;
  successful_tools : pyval;
  failed_tools : pyval;
  current_tool : pyval;
  recent_tools : pyval;
  last_update : pyval
}.

(** [SessionState()]: every field at its default. *)
Definition SessionState_default : SessionState :=
  {| session_id := VStr EmptyString;
     project_dir := VStr EmptyString;
     start_time := VFloat fzero;
     end_time := VNone;
     is_active := VBool false;
     total_tools := VInt 0;
     successful_tools := VInt 0;
     failed_tools := VInt 0;
     current_tool := VNone;
     recent_tools := VList [];
     last_update := VFloat fzero |}.

Inductive field : Type :=
| f_session_id | f_project_dir | f_start_time | f_end_time | f_is_active
| f_total_tools | f_successful_tools | f_failed_tools | f_current_tool
| f_recent_tools | f_last_update.

(** The fields in the order of their declaration. *)
Definition fields : list field :=
  [f_session_id; f_project_dir; f_start_time; f_end_time; f_is_active;
   f_total_tools; f_successful_tools; f_failed_tools; f_current_tool;
   f_recent_tools; f_last_update].

Definition field_name (f : field) : string :=
  match f with
  | f_session_id => "session_id"
  | f_project_dir => "project_dir"
  | f_start_time => "start_time"
  | f_end_time => "end_time"
  | f_is_active => "is_active"
  | f_total_tools => "total_tools"
  | f_successful_tools => "successful_tools"
  | f_failed_tools => "failed_tools"
  | f_current_tool => "current_tool"
  | f_recent_tools => "recent_tools"
  | f_last_update => "last_update"
  end.

Definition field_of_name (k : string) : option field :=
  find (fun f => String.eqb (field_name f) k) fields.

(** [getattr(self, f)]. *)
Definition getf (f : field) (self : SessionState) : pyval :=
  match f with
  | f_session_id => session_id self
  | f_project_dir => project_dir self
  | f_start_time => start_time self
  | f_end_time => end_time self
  | f_is_active => is_active self
  | f_total_tools => total_tools self
  | f_successful_tools => successful_tools self
  | f_failed_tools => failed_tools self
  | f_current_tool => current_tool self
  | f_recent_tools => recent_tools self
  | f_last_update => last_update self
  end.

(** [setattr(self, f, v)]: the state with one field replaced. *)
Definition setf (f : field) (v : pyval) (self : SessionState) : SessionState :=
  let '(mkSessionState a b c d e g h i j k l) := self in
  match f with
  | f_session_id => mkSessionState v b c d e g h i j k l
  | f_project_dir => mkSessionState a v c d e g h i j k l
  | f_start_time => mkSessionState a b v d e g h i j k l
  | f_end_time => mkSessionState a b c v e g h i j k l
  | f_is_active => mkSessionState a b c d v g h i j k l
  | f_total_tools => mkSessionState a b c d e v h i j k l
  | f_successful_tools => mkSessionState a b c d e g v i j k l
  | f_failed_tools => mkSessionState a b c d e g h v j k l
  | f_current_tool => mkSessionState a b c d e g h i v k l
  | f_recent_tools => mkSessionState a b c d e g h i j v l
  | f_last_update => mkSessionState a b c d e g h i j k v
  end.

(** [to_dict]: [asdict(self)], the fields by name in declaration order. *)
Definition to_dict (self : SessionState) : pyval :=
  VDict (map (fun f => (field_name f, getf f self)) fields).

(** Binding one keyword argument of the constructor: a keyword that is
    not a field is a [TypeError]. *)
Definition bind_keyword (self : SessionState) (kv : string * pyval)
    : result SessionState :=
  match field_of_name (fst kv) with
  | Some f => Ok (setf f (snd kv) self)
  | None => Raise TypeError
  end.

(** Binding the items of a dict one after the other. *)
Definition bind_all (d : list (string * pyval)) (acc : result SessionState)
    : result SessionState :=
  fold_left (fun acc kv => self <- acc ;; bind_keyword self kv) d acc.

(** [from_dict]: the constructor called with the items of [data] as
    keyword arguments.  [data] has to be a mapping; every item is bound,
    and the fields that are not given keep their defaults. *)
Definition from_dict (data : pyval) : result SessionState :=
  match data with
  | VDict d => bind_all d (Ok SessionState_default)
  | _ => Raise TypeError
  end.

Definition newline : string := String (ascii_of_nat 10) EmptyString.

(** The first two statements of [duration_str] past the guard:
    [end = self.end_time or time.time()] and
    [duration = int(end - self.start_time)]; [now] is what [time.time()]
    returns if it is called. *)
Definition session_end (self : SessionState) (now : float) : pyval :=
  if truthy (end_time self) then end_time self else VFloat now.

Definition duration_seconds (self : SessionState) (now : float) : result Z :=
  diff <- py_sub (session_end self now) (start_time self) ;;
  py_int diff.

Definition duration_str (self : SessionState) (now : float) : result string :=
  if eq_zero (start_time self) then Ok "N/A"
  else
    duration <- duration_seconds self now ;;
    if duration <? 60 then
      Ok (str_of_Z duration ++ "s")%string
    else if duration <? 3600 then
      let mins := duration / 60 in
      let secs := duration mod 60 in
      Ok (str_of_Z mins ++ "m " ++ str_of_Z secs ++ "s")%string
    else
      let hours := duration / 3600 in
      let mins := (duration mod 3600) / 60 in
      Ok (str_of_Z hours ++ "h " ++ str_of_Z mins ++ "m")%string.

(** ** The state file *)

(** What the file holds, by what reading it as UTF-8 text and
    [json.load] make of it: bytes that are not UTF-8, text that is not
    JSON, or the JSON value. *)
Inductive content : Type :=
| Undecodable
| Garbage
| Json (v : pyval).

Inductive file_state : Type :=
| Missing
| Present (c : content).

(** The file at the manager's path, and whether the system lets this
    process open it for reading and for writing (creating it when it is
    missing). *)
Record store : Type := mkStore {
  file : file_state;
  readable : bool;
  writable : bool
}.

Module StateManager.

(** [self.state_file.exists()]. *)
Definition exists_ (st : store) : bool :=
  match file st with
  | Missing => false
  | Present _ => true
  end.

(** [open(self.state_file, "r", encoding="utf-8")]. *)
Definition open_read (st : store) : result content :=
  match file st with
  | Missing => Raise OSError
  | Present c => if readable st then Ok c else Raise OSError
  end.

(** [json.load(f)]. *)
Definition json_load (c : content) : result pyval :=
  match c with
  | Undecodable => Raise UnicodeDecodeError
  | Garbage => Raise JSONDecodeError
  | Json v => Ok v
  end.

(** The classes of [except (json.JSONDecodeError, TypeError)]. *)
Definition load_handles (e : exn) : bool :=
  match e with
  | JSONDecodeError | TypeError => true
  | _ => false
  end.

Definition load (st : store) : result SessionState :=
  if negb (exists_ st) then Ok SessionState_default
  else
    try_except
      (c <- open_read st ;;
       data <- json_load c ;;
       from_dict data)
      load_handles
      (Ok SessionState_default).

(** [save] stamps [last_update] on the state it is given, then opens the
    file for writing and dumps [to_dict].  It returns the stamped state
    (the caller's object, mutated) and the store; [now] is the reading of
    [time.time()].  The file is kept as the value that [json.load] reads
    back from what [json.dump] wrote, which for these values is the
    value dumped. *)
Definition save (state : SessionState) (now : float) (st : store)
    : result (SessionState * store) :=
  let state := setf f_last_update (VFloat now) state in
  if writable st then
    Ok (state, {| file := Present (Json (to_dict state));
                  readable := readable st;
                  writable := writable st |})
  else Raise OSError.

Definition start_session (sid dir : string) (t_start t_save : float) (st : store)
    : result (SessionState * store) :=
  let state :=
    {| session_id := VStr sid;
       project_dir := VStr dir;
       start_time := VFloat t_start;
       end_time := end_time SessionState_default;
       is_active := VBool true;
       total_tools := VInt 0;
       successful_tools := VInt 0;
       failed_tools := VInt 0;
       current_tool := current_tool SessionState_default;
       recent_tools := VList [];
       last_update := last_update SessionState_default |} in
  save state t_save st.

Definition end_session (reason : string) (t_end t_save : float) (st : store)
    : result (SessionState * store) :=
  state <- load st ;;
  let state := setf f_is_active (VBool false) state in
  let state := setf f_end_time (VFloat t_end) state in
  let state := setf f_current_tool VNone state in
  save state t_save st.

Definition start_tool (tool_name : string) (tool_input : pyval)
    (t_start t_save : float) (st : store) : result (SessionState * store) :=
  state <- load st ;;
  let state :=
    setf f_current_tool
         (VDict [("name", VStr tool_name);
                 ("input", tool_input);
                 ("start_time", VFloat t_start)]) state in
  save state t_save st.

(** The entry of [recent_tools] for one finished tool; [hms] is
    [datetime.now().strftime("%H:%M:%S")]. *)
Definition tool_record (tool_name : string) (success : bool) (hms output : string)
    : pyval :=
  VDict [("name", VStr tool_name);
         ("success", VBool success);
         ("time", VStr hms);
         ("output", VStr (if truthy (VStr output) then substring 0 100 output
                          else EmptyString))].

Definition end_tool (tool_name : string) (success : bool) (output hms : string)
    (t_save : float) (st : store) : result (SessionState * store) :=
  state <- load st ;;
  total <- py_incr (total_tools state) ;;
  let state := setf f_total_tools total state in
  state <- (if success then
              n <- py_incr (successful_tools state) ;;
              Ok (setf f_successful_tools n state)
            else
              n <- py_incr (failed_tools state) ;;
              Ok (setf f_failed_tools n state)) ;;
  let record := tool_record tool_name success hms output in
  recent <- py_append (recent_tools state) record ;;
  let state := setf f_recent_tools (VList (last_n 10 recent)) state in
  let state := setf f_current_tool VNone state in
  save state t_save st.

Section Rendering.

(** What the summary takes from the Python library: [repr] of a float
    and of a container, and [pathlib]'s [Path(p).name]. *)
Variable float_repr : float -> string.
Variable container_repr : pyval -> string.
Variable path_name : string -> string.

(** The text an f-string puts for [{v}]. *)
Definition py_format (v : pyval) : string :=
  match v with
  | VNone => "None"
  | VBool true => "True"
  | VBool false => "False"
  | VInt n => str_of_Z n
  | VFloat f => float_repr f
  | VStr s => s
  | VList _ | VDict _ => container_repr v
  end.

(** [Path(v).name]: [Path] takes a string. *)
Definition py_path_name (v : pyval) : result string :=
  match v with
  | VStr s => Ok (path_name s)
  | _ => Raise TypeError
  end.

Definition get_status_summary (now : float) (st : store) : result string :=
  state <- load st ;;
  if negb (truthy (session_id state)) then Ok "No active session"
  else
    let status_icon := if truthy (is_active state) then "Active" else "Ended" in
    short_id <- py_prefix 8 (session_id state) ;;
    project <- (if truthy (project_dir state)
                then py_path_name (project_dir state)
                else Ok "N/A") ;;
    duration <- duration_str state now ;;
    let lines :=
      [("Session: " ++ py_format short_id)%string;
       ("Project: " ++ project)%string;
       ("Status: " ++ status_icon)%string;
       ("Duration: " ++ duration)%string;
       ("Tools: " ++ py_format (successful_tools state) ++ "/"
                  ++ py_format (total_tools state))%string;
       ("Errors: " ++ py_format (failed_tools state))%string] in
    lines <- (if truthy (current_tool state) then
                name <- py_getitem (current_tool state) "name" ;;
                Ok (lines ++ [("Current: " ++ py_format name)%string])%list
              else Ok lines) ;;
    Ok (String.concat newline lines).

End Rendering.

End StateManager.

(** ** Sequences of calls *)

(** A call that writes the state, with the clock readings it takes.
    [get_status_summary] only reads: it takes a store and gives none back. *)
Inductive op : Type :=
| StartSession (sid dir : string) (t_start t_save : float)
| EndSession (reason : string) (t_end t_save : float)
| StartTool (tool_name : string) (tool_input : pyval) (t_start t_save : float)
| EndTool (tool_name : string) (success : bool) (output hms : string)
          (t_save : float).

Definition step (o : op) (st : store) : result (SessionState * store) :=
  match o with
  | StartSession sid dir t0 t1 => StateManager.start_session sid dir t0 t1 st
  | EndSession reason t0 t1 => StateManager.end_session reason t0 t1 st
  | StartTool name input t0 t1 => StateManager.start_tool name input t0 t1 st
  | EndTool name success output hms t1 =>
      StateManager.end_tool name success output hms t1 st
  end.

(** The store after a call: a call that raises has written nothing. *)
Definition exec (st : store) (o : op) : store :=
  match step o st with
  | Ok (_, st') => st'
  | Raise _ => st
  end.

Definition exec_all (ops : list op) (st : store) : store :=
  fold_left exec ops st.

(** * Specification *)

Import StateManager.

(** ** Stores *)


(** The store after a successful [save] of [s]. *)
Definition written (st : store) (s : SessionState) : store :=
  {| file := Present (Json (to_dict s)); readable := readable st; writable := true |}.


(** A file is there and cannot be read. *)
Definition unreadable (st : store) : Prop :=
  readable st = false /\ exists c, file st = Present c.

(** ** Declared types *)

Definition is_str (v : pyval) : bool :=
  match v with VStr _ => true | _ => false end.

Definition is_float (v : pyval) : bool :=
  match v with VFloat _ => true | _ => false end.

Definition is_opt_float (v : pyval) : bool :=
  match v with VNone | VFloat _ => true | _ => false end.

Definition is_bool (v : pyval) : bool :=
  match v with VBool _ => true | _ => false end.

Definition is_int (v : pyval) : bool :=
  match v with VInt _ => true | _ => false end.

Definition is_list (v : pyval) : bool :=
  match v with VList _ => true | _ => false end.

(** [None], or a dict with a ["name"] as [start_tool] makes it. *)
Definition is_opt_tool (v : pyval) : bool :=
  match v with
  | VNone => true
  | VDict d => match dict_get "name" d with Some _ => true | None => false end
  | _ => false
  end.

(** The fields have the types the dataclass declares for them. *)
Definition well_typed (s : SessionState) : bool :=
  is_str (session_id s) && is_str (project_dir s) &&
  is_float (start_time s) && is_opt_float (end_time s) &&
  is_bool (is_active s) &&
  is_int (total_tools s) && is_int (successful_tools s) &&
  is_int (failed_tools s) &&
  is_opt_tool (current_tool s) && is_list (recent_tools s) &&
  is_float (last_update s).

(** ** The effect of a call *)

(** The state that [start_session] builds and saves. *)
Definition started (sid dir : string) (t_start t_save : float) : SessionState :=
  {| session_id := VStr sid;
     project_dir := VStr dir;
     start_time := VFloat t_start;
     end_time := VNone;
     is_active := VBool true;
     total_tools := VInt 0;
     successful_tools := VInt 0;
     failed_tools := VInt 0;
     current_tool := VNone;
     recent_tools := VList [];
     last_update := VFloat t_save |}.

(** What a call makes of the state [s] it loaded, when the fields of [s]
    have their declared types. *)
Definition effect (o : op) (s s' : SessionState) : Prop :=
  match o with
  | StartSession sid dir t0 t1 => s' = started sid dir t0 t1
  | EndSession _ t0 t1 =>
      s' = setf f_last_update (VFloat t1)
             (setf f_current_tool VNone
                (setf f_end_time (VFloat t0)
                   (setf f_is_active (VBool false) s)))
  | StartTool name input t0 t1 =>
      s' = setf f_last_update (VFloat t1)
             (setf f_current_tool
                (VDict [("name", VStr name); ("input", input);
                        ("start_time", VFloat t0)]) s)
  | EndTool name success output hms t1 =>
      exists total n l,
        total_tools s = VInt total /\
        getf (if success then f_successful_tools else f_failed_tools) s = VInt n /\
        recent_tools s = VList l /\
        s' = setf f_last_update (VFloat t1)
               (setf f_current_tool VNone
                  (setf f_recent_tools
                     (VList (last_n 10 (l ++ [tool_record name success hms output])))
                     (setf (if success then f_successful_tools else f_failed_tools)
                        (VInt (n + 1))
                        (setf f_total_tools (VInt (total + 1)) s))))
  end.

(** ** Invariants *)

(** The store can be read and written and holds the dump of a state of
    the declared types that satisfies [P]. *)
Definition holds (P : SessionState -> Prop) (st : store) : Prop :=
  readable st = true /\ writable st = true /\
  exists s, file st = Present (Json (to_dict s)) /\ well_typed s = true /\ P s.

(** The counters are non-negative integers and the total is the sum of
    the other two. *)
Definition counters_ok (s : SessionState) : Prop :=
  exists a b, 0 <= a /\ 0 <= b /\
    successful_tools s = VInt a /\ failed_tools s = VInt b /\
    total_tools s = VInt (a + b).


Definition is_start_session (o : op) : bool :=
  match o with StartSession _ _ _ _ => true | _ => false end.

Definition is_start_tool (o : op) : bool :=
  match o with StartTool _ _ _ _ => true | _ => false end.





(** The tool that is open after a call: the one a [start_tool] has just
    set, none after any other call. *)
Definition open_step (g : option (string * pyval * float)) (o : op)
    : option (string * pyval * float) :=
  match o with
  | StartTool name input t0 _ => Some (name, input, t0)
  | _ => None
  end.

Definition open_tool (ops : list op) : option (string * pyval * float) :=
  fold_left open_step ops None.

(** The value of [current_tool] for an open tool. *)
Definition tool_value (g : option (string * pyval * float)) : pyval :=
  match g with
  | Some (name, input, t0) =>
      VDict [("name", VStr name); ("input", input); ("start_time", VFloat t0)]
  | None => VNone
  end.

(** ** Examples *)

Definition empty_store : store :=
  {| file := Missing; readable := true; writable := true |}.


Definition garbage_store : store :=
  {| file := Present Garbage; readable := true; writable := true |}.

(** An object all of whose keys are fields, with a string for
    [total_tools]. *)
Definition mistyped_store : store :=
  {| file := Present (Json (VDict [("total_tools", VStr "seven")]));
     readable := true; writable := true |}.


(** A session from 1000.0 to [1000.0 + d]. *)
Definition session_lasting (d : Z) : SessionState :=
  setf f_end_time (VFloat (float_of_Z (1000 + d)))
    (setf f_start_time (VFloat (float_of_Z 1000)) SessionState_default).

(** A session with three tools, the second of which failed. *)
Definition three_tools : list op :=
  [StartTool "Bash" (VDict [("command", VStr "ls")]) fone fone;
   EndTool "Bash" true "ok" "12:00:01" fone;
   EndTool "Read" false "no such file" "12:00:02" fone].


(** * The rest of the code *)

(** ** More of Python *)

(** [v.get(k, default)]: a method of dicts only. *)
Definition py_get (v : pyval) (k : string) (default : pyval) : result pyval :=
  match v with
  | VDict d => Ok (match dict_get k d with Some x => x | None => default end)
  | _ => Raise AttributeError
  end.



(** [k in v] for a string [k]: a key of a dict, an item of a list, a
    substring of a string; other values cannot be searched. *)
Definition py_contains (k : string) (v : pyval) : result bool :=
  match v with
  | VDict d => Ok (existsb (fun kv => String.eqb (fst kv) k) d)
  | VList l => Ok (existsb (fun x => match x with
                                     | VStr s => String.eqb s k
                                     | _ => false
                                     end) l)
  | VStr s => Ok (match index 0 k s with Some _ => true | None => false end)
  | _ => Raise TypeError
  end.

(** [d[k] = v] on the items of a dict: the value of a key that is there
    is replaced where it stands, a new key goes to the end. *)
Definition dict_set (k : string) (v : pyval) (d : list (string * pyval))
    : list (string * pyval) :=
  if existsb (fun kv => String.eqb (fst kv) k) d
  then map (fun kv => if String.eqb (fst kv) k then (k, v) else kv) d
  else (d ++ [(k, v)])%list.


(** [v[k] = x] for a string [k]: only a dict takes it. *)
Definition py_setitem (v : pyval) (k : string) (x : pyval) : result pyval :=
  match v with
  | VDict d => Ok (VDict (dict_set k x d))
  | _ => Raise TypeError
  end.


(** ** [bot/telegram_bot.py]: the command handlers *)

(** A handler loads the state, builds a message and hands it to
    [update.message.reply_html]; it is modelled by the message. *)
Module TelegramBot.

Section Handlers.

Variable float_repr : float -> string.
Variable container_repr : pyval -> string.
Variable path_name : string -> string.

(** The text that an f-string puts for a value. *)
Definition fmt : pyval -> string :=
  StateManager.py_format float_repr container_repr.

Definition status_command (now : float) (st : store) : result string :=
  state <- StateManager.load st ;;
  if negb (truthy (session_id state)) then
    Ok ("<b>No active session</b>" ++ newline ++ newline
        ++ "Claude Code is not currently running.")%string
  else
    let status_icon := if truthy (is_active state) then "ACTIVE" else "IDLE" in
    short_id <- py_prefix 8 (session_id state) ;;
    duration <- duration_str state now ;;
    let message :=
      ("<b>CLAUDE CODE STATUS</b>" ++ newline
       ++ newline
       ++ "<b>Status:</b> " ++ status_icon ++ newline
       ++ "<b>Session:</b> <code>" ++ fmt short_id ++ "</code>" ++ newline
       ++ "<b>Duration:</b> " ++ duration ++ newline
       ++ "<b>Tools Run:</b> " ++ fmt (successful_tools state) ++ "/"
       ++ fmt (total_tools state) ++ newline
       ++ "<b>Errors:</b> " ++ fmt (failed_tools state))%string in
    if truthy (current_tool state) then
      tool_name <- py_get (current_tool state) "name" (VStr "Unknown") ;;
      Ok (message ++ newline ++ newline
          ++ "<b>Currently Running:</b> " ++ fmt tool_name)%string
    else Ok message.





End Handlers.

End TelegramBot.

(** ** [install_hooks.py] *)

(** The settings file is a [store] like the state file.  [answer] is what
    [input("Overwrite? (y/N): ").strip().lower()] gives when it is asked;
    what the script prints is left out. *)
Module InstallHooks.

Definition double_quote : string := String (ascii_of_nat 34) EmptyString.

Definition create_hooks_config (hook_path : string) : pyval :=
  let hook_command := ("python " ++ double_quote ++ hook_path ++ double_quote)%string in
  VDict
    [("SessionStart",
      VList [VDict [("hooks", VList [VDict [("type", VStr "command");
                                            ("command", VStr hook_command);
                                            ("timeout", VInt 15)]])]]);
     ("SessionEnd",
      VList [VDict [("hooks", VList [VDict [("type", VStr "command");
                                            ("command", VStr hook_command);
                                            ("timeout", VInt 15)]])]]);
     ("PreToolUse",
      VList [VDict [("matcher", VStr "Bash");
                    ("hooks", VList [VDict [("type", VStr "command");
                                            ("command", VStr hook_command);
                                            ("timeout", VInt 15)]])]]);
     ("PostToolUse",
      VList [VDict [("matcher", VStr "Bash");
                    ("hooks", VList [VDict [("type", VStr "command");
                                            ("command", VStr hook_command);
                                            ("timeout", VInt 15)]])]]);
     ("PostToolUseFailure",
      VList [VDict [("matcher", VStr "*");
                    ("hooks", VList [VDict [("type", VStr "command");
                                            ("command", VStr hook_command);
                                            ("timeout", VInt 15)]])]])].

(** [with open(settings_path, "r", encoding="utf-8") as f: json.load(f)],
    with nothing around it to catch an exception. *)
Definition read_settings (st : store) : result pyval :=
  c <- StateManager.open_read st ;;
  StateManager.json_load c.

(** [with open(settings_path, "w", encoding="utf-8") as f:
    json.dump(settings, f, indent=2)]. *)
Definition write_settings (settings : pyval) (st : store) : result store :=
  if writable st then
    Ok {| file := Present (Json settings);
          readable := readable st;
          writable := writable st |}
  else Raise OSError.

Definition install_hooks (hook_path answer : string) (st : store)
    : result (bool * store) :=
  settings <- (if StateManager.exists_ st then read_settings st
               else Ok (VDict [])) ;;
  found <- py_contains "hooks" settings ;;
  if found && negb (String.eqb answer "y") then Ok (false, st)
  else
    settings <- py_setitem settings "hooks" (create_hooks_config hook_path) ;;
    st' <- write_settings settings st ;;
    Ok (true, st').


End InstallHooks.

(** ** Vocabulary of the further properties *)





Definition ok_call (o : op) : bool :=
  match o with EndTool _ true _ _ _ => true | _ => false end.

Definition err_call (o : op) : bool :=
  match o with EndTool _ false _ _ _ => true | _ => false end.

Definition is_end_session (o : op) : bool :=
  match o with EndSession _ _ _ => true | _ => false end.





(** A store whose session has ended. *)
Definition ended_store : store :=
  {| file := Present (Json (VDict [("session_id", VStr "abc123");
                                   ("is_active", VBool false);
                                   ("total_tools", VInt 3)]));
     readable := true; writable := true |}.



(** A state whose start time is not a number. *)
Definition nan_started : SessionState :=
  setf f_start_time (VFloat S754_nan) SessionState_default.

(** The last item of a list. *)
Definition last_item {A : Type} (l : list A) : option A :=
  match rev l with
  | [] => None
  | x :: _ => Some x
  end.




(** A state with a current tool that has no name. *)
Definition nameless_tool_store : store :=
  {| file := Present (Json (VDict [("session_id", VStr "abc123");
                                   ("current_tool", VDict [("pid", VInt 7)])]));
     readable := true; writable := true |}.

(** [k] is a key of the dict. *)
Definition has_key (k : string) (d : list (string * pyval)) : bool :=
  existsb (fun kv => String.eqb (fst kv) k) d.


(** A settings file without hooks. *)
Definition plain_settings_store : store :=
  {| file := Present (Json (VDict [("model", VStr "opus");
                                   ("verbose", VBool true)]));
     readable := true; writable := true |}.


(** The settings that [install_hooks] starts from. *)
Definition settings_of (st : store) : option (list (string * pyval)) :=
  match file st with
  | Missing => Some []
  | Present (Json (VDict d)) => Some d
  | Present _ => None
  end.

(** * Lemmas and theorems *)

(** ** Fields *)






(** ** Dictionaries and [from_dict] *)

Lemma dict_get_snoc k d kv :
  dict_get k (d ++ [kv]) =
  if String.eqb (fst kv) k then Some (snd kv) else dict_get k d.
Proof. unfold dict_get. rewrite fold_left_app. reflexivity. Qed.


Lemma bind_all_raise d e : bind_all d (Raise e) = Raise e.
Proof. induction d as [|kv d IH]; simpl; auto. Qed.

(** Binding only raises [TypeError]. *)
Lemma bind_all_exn d acc e : bind_all d (Ok acc) = Raise e -> e = TypeError.
Proof.
  revert acc. induction d as [|kv d IH]; simpl; intros acc H.
  - discriminate.
  - unfold bind_keyword in H at 1.
    destruct (field_of_name (fst kv)).
    + eapply IH, H.
    + fold (bind_all d (Raise TypeError)) in H.
      rewrite bind_all_raise in H. congruence.
Qed.



Lemma from_dict_to_dict s : from_dict (to_dict s) = Ok s.
Proof. destruct s; reflexivity. Qed.

Lemma from_dict_exn v e : from_dict v = Raise e -> e = TypeError.
Proof.
  destruct v; simpl; try congruence.
  apply bind_all_exn.
Qed.

(** ** [load] *)

Lemma load_missing st : file st = Missing -> load st = Ok SessionState_default.
Proof. unfold load, exists_. now intros ->. Qed.

Lemma load_present st c :
  file st = Present c -> readable st = true ->
  load st = try_except (data <- json_load c ;; from_dict data) load_handles
                       (Ok SessionState_default).
Proof. unfold load, exists_, open_read. now intros -> ->. Qed.

Lemma load_unreadable st c :
  file st = Present c -> readable st = false -> load st = Raise OSError.
Proof. unfold load, exists_, open_read. now intros -> ->. Qed.

(** What a store holding a dumped state gives back. *)
Lemma load_dumped st s :
  file st = Present (Json (to_dict s)) -> readable st = true -> load st = Ok s.
Proof.
  intros Hf Hr. rewrite (load_present _ _ Hf Hr).
  cbn [json_load bind]. now rewrite from_dict_to_dict.
Qed.

Lemma load_dumped_inv st s s' :
  file st = Present (Json (to_dict s)) -> load st = Ok s' ->
  s' = s /\ readable st = true.
Proof.
  intros Hf Hl. destruct (readable st) eqn:Hr.
  - rewrite (load_dumped _ _ Hf Hr) in Hl. split; congruence.
  - rewrite (load_unreadable _ _ Hf Hr) in Hl. discriminate.
Qed.

(** [load] returns on every file that can be read and decoded. *)
Lemma load_returns st :
  readable st = true -> file st <> Present Undecodable -> returns (load st).
Proof.
  intros Hr Hf. destruct (file st) as [|c] eqn:Hc.
  - exists SessionState_default. now apply load_missing.
  - rewrite (load_present _ _ Hc Hr). destruct c as [ | | v]; cbn [json_load bind].
    + contradiction.
    + now eexists.
    + destruct (from_dict v) as [s|e] eqn:Hv; cbn; [now eexists|].
      rewrite (from_dict_exn _ _ Hv). now eexists.
Qed.







(** The store read errors that [load] lets through. *)
Example load_unreadable_raises :
  load {| file := Present Garbage; readable := false; writable := true |}
  = Raise OSError.
Proof. reflexivity. Qed.

Example load_undecodable_raises :
  load {| file := Present Undecodable; readable := true; writable := true |}
  = Raise UnicodeDecodeError.
Proof. reflexivity. Qed.



(** ** [save] and the round trip *)

Lemma save_writable state now st :
  writable st = true ->
  save state now st =
  Ok (setf f_last_update (VFloat now) state,
      {| file := Present (Json (to_dict (setf f_last_update (VFloat now) state)));
         readable := readable st;
         writable := true |}).
Proof. unfold save. now intros ->. Qed.

Lemma save_unwritable state now st :
  writable st = false -> save state now st = Raise OSError.
Proof. unfold save. now intros ->. Qed.



(** ** Durations *)

Lemma gt_zero_not_eq_zero v : gt_zero v = true -> eq_zero v = false.
Proof.
  destruct v as [ | b | n | f | | | ]; simpl; try discriminate.
  - now intros ->.
  - intros H. apply Z.ltb_lt in H. apply Z.eqb_neq. lia.
  - unfold fltb, feqb, SFltb, SFeqb, fzero.
    destruct f as [ [|] | [|] | | [|] m e ]; simpl; congruence.
Qed.

(** C10: a state whose [start_time] equals zero has no duration to
    show. *)
Theorem duration_str_not_started s now :
  eq_zero (start_time s) = true -> duration_str s now = Ok "N/A".
Proof. unfold duration_str. now intros ->. Qed.

Lemma duration_str_not_started_witness :
  load empty_store = Ok SessionState_default /\
  duration_str SessionState_default fone = Ok "N/A".
Proof.
  split; [reflexivity|].
  apply (duration_str_not_started SessionState_default fone). reflexivity.
Defined.

(** C7: with [start_time > 0] and [d] the integer duration
    [int(end - start_time)], [duration_str] shows [d] in seconds below a
    minute, in minutes and seconds below an hour, and in hours and
    minutes from an hour on; 45, 125 and 3725 give "45s", "2m 5s" and
    "1h 2m". *)
Theorem duration_str_buckets s now d :
  gt_zero (start_time s) = true ->
  duration_seconds s now = Ok d ->
  (d < 60 -> duration_str s now = Ok (str_of_Z d ++ "s")%string) /\
  (60 <= d < 3600 ->
   duration_str s now
   = Ok (str_of_Z (d / 60) ++ "m " ++ str_of_Z (d mod 60) ++ "s")%string) /\
  (3600 <= d ->
   duration_str s now
   = Ok (str_of_Z (d / 3600) ++ "h " ++ str_of_Z ((d mod 3600) / 60) ++ "m")%string) /\
  (d = 45 -> duration_str s now = Ok "45s") /\
  (d = 125 -> duration_str s now = Ok "2m 5s") /\
  (d = 3725 -> duration_str s now = Ok "1h 2m").
Proof.
  intros Hpos Hd. unfold duration_str.
  rewrite (gt_zero_not_eq_zero _ Hpos), Hd. cbn [bind].
  repeat split.
  - intros H. apply Z.ltb_lt in H. now rewrite H.
  - intros [H1 H2]. apply Z.ltb_ge in H1. apply Z.ltb_lt in H2.
    now rewrite H1, H2.
  - intros H. assert (H1 : (d <? 60) = false) by (apply Z.ltb_ge; lia).
    apply Z.ltb_ge in H. now rewrite H1, H.
  - now intros ->.
  - now intros ->.
  - now intros ->.
Qed.

Lemma duration_str_buckets_witness :
  duration_str (session_lasting 45) fzero = Ok "45s" /\
  duration_str (session_lasting 59) fzero = Ok "59s" /\
  duration_str (session_lasting 60) fzero = Ok "1m 0s" /\
  duration_str (session_lasting 125) fzero = Ok "2m 5s" /\
  duration_str (session_lasting 3599) fzero = Ok "59m 59s" /\
  duration_str (session_lasting 3600) fzero = Ok "1h 0m" /\
  duration_str (session_lasting 3725) fzero = Ok "1h 2m".
Proof.
  pose proof (fun d => duration_str_buckets (session_lasting d) fzero d) as B.
  split; [apply (B 45); [reflexivity | vm_compute; reflexivity | lia] |].
  split; [apply (B 59); [reflexivity | vm_compute; reflexivity | lia] |].
  split; [apply (B 60); [reflexivity | vm_compute; reflexivity | lia] |].
  split; [apply (B 125); [reflexivity | vm_compute; reflexivity | lia] |].
  split; [apply (B 3599); [reflexivity | vm_compute; reflexivity | lia] |].
  split; [apply (B 3600); [reflexivity | vm_compute; reflexivity | lia] |].
  apply (B 3725); [reflexivity | vm_compute; reflexivity | lia].
Defined.

(** ** One call *)

Lemma bind_ok {A B : Type} (c : result A) (k : A -> result B) b :
  bind c k = Ok b -> exists a, c = Ok a /\ k a = Ok b.
Proof. destruct c as [a|e]; simpl; [eauto | discriminate]. Qed.

Lemma well_typed_default : well_typed SessionState_default = true.
Proof. reflexivity. Qed.

Lemma start_session_returns sid dir t0 t1 st :
  writable st = true ->
  start_session sid dir t0 t1 st
  = Ok (started sid dir t0 t1, written st (started sid dir t0 t1)).
Proof. intros Hw. unfold start_session. now rewrite (save_writable _ _ _ Hw). Qed.

(** A call on a writable store whose state loads with the declared types
    returns, and leaves the state it returns in the store. *)
Lemma step_returns o st s :
  writable st = true -> load st = Ok s -> well_typed s = true ->
  exists s', step o st = Ok (s', written st s') /\
             well_typed s' = true /\ effect o s s'.
Proof.
  intros Hw Hl Ht. destruct o as [sid dir t0 t1 | reason t0 t1
                                 | name input t0 t1 | name success output hms t1];
    cbn [step].
  - exists (started sid dir t0 t1). split; [|split; reflexivity].
    now apply start_session_returns.
  - unfold end_session. rewrite Hl. cbn [bind].
    rewrite (save_writable _ _ _ Hw). eexists. split; [reflexivity|].
    split; [|reflexivity].
    destruct s; unfold well_typed in *; cbn in *.
    repeat (apply andb_prop in Ht; destruct Ht as [Ht ?]).
    repeat (apply andb_true_intro; split); assumption || reflexivity.
  - unfold start_tool. rewrite Hl. cbn [bind].
    rewrite (save_writable _ _ _ Hw). eexists. split; [reflexivity|].
    split; [|reflexivity].
    destruct s; unfold well_typed in *; cbn in *.
    repeat (apply andb_prop in Ht; destruct Ht as [Ht ?]).
    repeat (apply andb_true_intro; split); assumption || reflexivity.
  - unfold end_tool. rewrite Hl. cbn [bind].
    destruct s as [a b c d e [ | | total | | | | ] [ | | ns | | | | ]
                     [ | | nf | | | | ] j [ | | | | | l | ] u];
      unfold well_typed in Ht; cbn in Ht;
      repeat rewrite ?andb_false_r, ?andb_false_l in Ht; try discriminate Ht.
    destruct success; cbn; rewrite (save_writable _ _ _ Hw).
    + eexists. split; [reflexivity|]. split.
      * unfold well_typed in *; cbn in *.
        repeat (apply andb_prop in Ht; destruct Ht as [Ht ?]).
        repeat (apply andb_true_intro; split); assumption || reflexivity.
      * exists total, ns, l. repeat split.
    + eexists. split; [reflexivity|]. split.
      * unfold well_typed in *; cbn in *.
        repeat (apply andb_prop in Ht; destruct Ht as [Ht ?]).
        repeat (apply andb_true_intro; split); assumption || reflexivity.
      * exists total, nf, l. repeat split.
Qed.

Ltac peel H :=
  repeat match type of H with
         | bind _ _ = Ok _ =>
             let x := fresh "x" in
             let E := fresh "E" in
             apply bind_ok in H; destruct H as [x [E H]]; cbv beta in H
         end.

Lemma save_returned state now st s' st' :
  save state now st = Ok (s', st') ->
  writable st = true /\ s' = setf f_last_update (VFloat now) state /\
  st' = written st s'.
Proof.
  destruct (writable st) eqn:Hw.
  - rewrite (save_writable _ _ _ Hw). intros [= <- <-]. now repeat split.
  - now rewrite (save_unwritable _ _ _ Hw).
Qed.

(** A call that returns has written the state it returns. *)
Lemma step_store o st s' st' :
  step o st = Ok (s', st') -> writable st = true /\ st' = written st s'.
Proof.
  destruct o; cbn [step];
    unfold start_session, end_session, start_tool, end_tool;
    intros H; peel H; apply save_returned in H; tauto.
Qed.

(** [current_tool] after a call that returns. *)
Lemma step_current_tool o st s' st' :
  step o st = Ok (s', st') ->
  current_tool s' = tool_value (open_step None o).
Proof.
  destruct o; cbn [step];
    unfold start_session, end_session, start_tool, end_tool;
    intros H; peel H; apply save_returned in H;
    destruct H as [_ [-> _]];
    repeat match goal with x : SessionState |- _ => destruct x end;
    reflexivity.
Qed.

(** ** Stores that hold a state *)

Lemma holds_load P st :
  holds P st -> exists s, load st = Ok s /\ well_typed s = true /\ P s.
Proof.
  intros [Hr [_ [s [Hf [Ht HP]]]]]. exists s. split; [|tauto].
  now apply load_dumped.
Qed.

Lemma holds_written P st s :
  readable st = true -> well_typed s = true -> P s -> holds P (written st s).
Proof.
  intros Hr Ht HP. split; [exact Hr|]. split; [reflexivity|].
  exists s. now repeat split.
Qed.

Lemma holds_step (P Q : SessionState -> Prop) o st :
  holds P st ->
  (forall s s', well_typed s = true -> P s -> effect o s s' -> Q s') ->
  exists s', step o st = Ok (s', written st s') /\ Q s' /\
             holds Q (written st s').
Proof.
  intros H HPQ. destruct (holds_load _ _ H) as [s [Hl [Ht HP]]].
  destruct H as [Hr [Hw _]].
  destruct (step_returns o st s Hw Hl Ht) as [s' [Hs [Ht' He]]].
  exists s'. split; [exact Hs|].
  assert (Q s') by exact (HPQ s s' Ht HP He).
  split; [assumption|]. now apply holds_written.
Qed.

Section Ghost.

(** An invariant [P] of the stored state that follows the calls made so
    far through a ghost value [g]. *)
Context {G : Type} (P : G -> SessionState -> Prop) (upd : G -> op -> G).
Hypothesis P_effect :
  forall g o s s', well_typed s = true -> P g s -> effect o s s' -> P (upd g o) s'.

Lemma holds_exec g o st : holds (P g) st -> holds (P (upd g o)) (exec st o).
Proof.
  intros H. destruct (holds_step (P g) (P (upd g o)) o st H) as [s' [Hs [_ H']]].
  - intros s s0. apply P_effect.
  - unfold exec. now rewrite Hs.
Qed.

Lemma holds_exec_all ops :
  forall g st, holds (P g) st -> holds (P (fold_left upd ops g)) (exec_all ops st).
Proof.
  induction ops as [|o ops IH]; intros g st H; cbn [exec_all fold_left].
  - exact H.
  - apply IH. now apply holds_exec.
Qed.

End Ghost.

Lemma unreadable_exec st o : unreadable st -> unreadable (exec st o).
Proof.
  intros [Hr [c Hf]]. unfold exec.
  destruct (step o st) as [[s' st']|e] eqn:Hs; [|now split; eauto].
  apply step_store in Hs. destruct Hs as [_ ->].
  split; [exact Hr | now eexists].
Qed.

Lemma unreadable_exec_all ops st : unreadable st -> unreadable (exec_all ops st).
Proof.
  revert st. induction ops as [|o ops IH]; intros st H; cbn [exec_all fold_left].
  - exact H.
  - now apply IH, unreadable_exec.
Qed.

Lemma unreadable_load st : unreadable st -> load st = Raise OSError.
Proof. intros [Hr [c Hf]]. now apply (load_unreadable st c). Qed.

(** The store that a [start_session] has just written. *)
Lemma started_store sid dir t0 t1 st s0 st1 :
  start_session sid dir t0 t1 st = Ok (s0, st1) ->
  s0 = started sid dir t0 t1 /\ st1 = written st s0 /\
  (readable st = true -> forall P : SessionState -> Prop, P s0 -> holds P st1) /\
  (readable st = false -> unreadable st1).
Proof.
  intros H. pose proof (step_store (StartSession sid dir t0 t1) _ _ _ H) as [Hw ->].
  rewrite (start_session_returns _ _ _ _ _ Hw) in H. injection H as <-.
  split; [reflexivity|]. split; [reflexivity|]. split.
  - intros Hr P HP. now apply holds_written.
  - intros Hr. split; [exact Hr | now eexists].
Qed.

(** ** The counters *)

Lemma counters_ok_effect o s s' :
  counters_ok s -> effect o s s' -> counters_ok s'.
Proof.
  intros [a [b [Ha [Hb [Hs [Hf Ht]]]]]].
  destruct o as [sid dir t0 t1 | reason t0 t1 | name input t0 t1
                | name success output hms t1]; cbn [effect].
  - intros ->. exists 0, 0. cbn. auto using Z.le_refl.
  - intros ->. exists a, b. destruct s; cbn in *. auto.
  - intros ->. exists a, b. destruct s; cbn in *. auto.
  - intros [total [n [l [Ht' [Hn [_ ->]]]]]].
    destruct s; cbn in *. destruct success; cbn in *.
    + assert (n = a) by congruence. assert (total = a + b) by congruence.
      subst n total.
      refine (ex_intro _ (a + 1) (ex_intro _ b
                (conj _ (conj Hb (conj eq_refl (conj Hf _)))))); [lia|].
      cbn. f_equal. lia.
    + assert (n = b) by congruence. assert (total = a + b) by congruence.
      subst n total.
      refine (ex_intro _ a (ex_intro _ (b + 1)
                (conj Ha (conj _ (conj Hs (conj eq_refl _)))))); [lia|].
      cbn. f_equal. lia.
Qed.

(** C3: once [start_session] has returned, whatever calls follow, a call
    of [end_tool] that returns gives a state whose counters are
    non-negative integers with
    [total_tools = successful_tools + failed_tools]. *)
Theorem counter_invariant sid dir t0 t1 st0 s0 st1 ops
    name success output hms t s st :
  start_session sid dir t0 t1 st0 = Ok (s0, st1) ->
  end_tool name success output hms t (exec_all ops st1) = Ok (s, st) ->
  exists a b, 0 <= a /\ 0 <= b /\
    successful_tools s = VInt a /\ failed_tools s = VInt b /\
    total_tools s = VInt (a + b).
Proof.
  intros Hstart Hend. fold (counters_ok s).
  destruct (started_store _ _ _ _ _ _ _ Hstart) as [Hs0 [_ [Hread Hunread]]].
  destruct (readable st0) eqn:Hr.
  - assert (H1 : holds counters_ok st1).
    { apply Hread; [reflexivity|]. subst s0. exists 0, 0. cbn.
      auto using Z.le_refl. }
    pose proof (holds_exec_all (fun _ : unit => counters_ok) (fun g _ => g)
                  (fun _ o s s' _ => counters_ok_effect o s s') ops tt st1 H1)
      as H2.
    destruct (holds_step counters_ok counters_ok
                (EndTool name success output hms t) _ H2) as [s' [Hs' [Hc _]]].
    + intros x x' _. apply counters_ok_effect.
    + cbn [step] in Hs'. rewrite Hs' in Hend. now injection Hend as <- _.
  - pose proof (unreadable_exec_all ops st1 (Hunread eq_refl)) as Hu.
    unfold end_tool in Hend. rewrite (unreadable_load _ Hu) in Hend.
    discriminate.
Qed.

Lemma counter_invariant_witness :
  exists s st,
    end_tool "Edit" true EmptyString "12:00:03" fone
      (exec_all three_tools (written empty_store (started "abc123" "/proj" fone fone)))
    = Ok (s, st) /\
    exists a b, 0 <= a /\ 0 <= b /\
      successful_tools s = VInt a /\ failed_tools s = VInt b /\
      total_tools s = VInt (a + b).
Proof.
  eexists. eexists. split; [vm_compute; reflexivity|].
  eapply (counter_invariant "abc123" "/proj" fone fone empty_store
            (started "abc123" "/proj" fone fone)
            (written empty_store (started "abc123" "/proj" fone fone))
            three_tools "Edit" true EmptyString "12:00:03" fone);
    vm_compute; reflexivity.
Defined.

(** ** The recent tools *)












(** ** The current tool *)

Lemma current_tool_effect g o s s' :
  effect o s s' -> current_tool s' = tool_value (open_step g o).
Proof.
  destruct o; cbn [effect open_step tool_value].
  - now intros ->.
  - intros ->. now destruct s.
  - intros ->. now destruct s.
  - intros [total [n [l [_ [_ [_ ->]]]]]]. now destruct s, success.
Qed.

Lemma open_tool_snoc ops o : open_tool (ops ++ [o]) = open_step (open_tool ops) o.
Proof. unfold open_tool. now rewrite fold_left_app. Qed.

Lemma open_tool_some ops name input t0 :
  open_tool ops = Some (name, input, t0) ->
  exists ops' t1, ops = (ops' ++ [StartTool name input t0 t1])%list.
Proof.
  destruct ops as [|o ops] using rev_ind.
  - discriminate.
  - rewrite open_tool_snoc. destruct o; cbn; try discriminate.
    intros [= -> -> ->]. eauto.
Qed.

(** C8: [start_session] returns a state without a current tool, and in
    the state stored after any calls that follow it [current_tool] is
    either [None] or the record of a [start_tool] that was the last call;
    after a last call that is not [start_tool] it is [None].  On any
    store, a call that returns gives a state whose [current_tool] is the
    record it has just made if it is [start_tool], and [None] if it is
    [start_session], [end_tool] or [end_session]. *)
Theorem current_tool_invariant sid dir t0 t1 st0 s0 st1 ops s :
  start_session sid dir t0 t1 st0 = Ok (s0, st1) ->
  load (exec_all ops st1) = Ok s ->
  current_tool s0 = VNone /\
  (current_tool s = VNone \/
   exists ops' name input ta tb,
     ops = (ops' ++ [StartTool name input ta tb])%list /\
     current_tool s = VDict [("name", VStr name); ("input", input);
                             ("start_time", VFloat ta)]) /\
  (forall ops' o, ops = (ops' ++ [o])%list -> is_start_tool o = false ->
                  current_tool s = VNone) /\
  (forall o st x st', step o st = Ok (x, st') ->
     current_tool x = match o with
                      | StartTool name input ta _ =>
                          VDict [("name", VStr name); ("input", input);
                                 ("start_time", VFloat ta)]
                      | _ => VNone
                      end).
Proof.
  intros Hstart Hload.
  destruct (started_store _ _ _ _ _ _ _ Hstart) as [Hs0 [_ [Hread Hunread]]].
  split; [now subst s0|].
  rewrite <- and_assoc. split;
    [|intros o st x st' Hx; rewrite (step_current_tool _ _ _ _ Hx); now destruct o].
  destruct (readable st0) eqn:Hr.
  - assert (H1 : holds (fun x => current_tool x = tool_value None) st1).
    { apply Hread; [reflexivity|]. now subst s0. }
    pose proof (holds_exec_all (fun g x => current_tool x = tool_value g) open_step
                  (fun g o x x' _ _ => current_tool_effect g o x x') ops None st1 H1)
      as H2.
    destruct (holds_load _ _ H2) as [s' [Hl [_ Hc]]].
    rewrite Hl in Hload. injection Hload as ->.
    fold (open_tool ops) in Hc. split.
    + destruct (open_tool ops) as [[[name input] ta]|] eqn:Ho; [right|now left].
      destruct (open_tool_some _ _ _ _ Ho) as [ops' [tb ->]].
      now exists ops', name, input, ta, tb.
    + intros ops' o -> Ho. rewrite open_tool_snoc in Hc.
      now destruct o.
  - pose proof (unreadable_exec_all ops st1 (Hunread eq_refl)) as Hu.
    rewrite (unreadable_load _ Hu) in Hload. discriminate.
Qed.

Lemma current_tool_invariant_witness :
  exists s,
    load (exec_all (three_tools ++ [StartTool "Edit" VNone fone fone])
            (written empty_store (started "abc123" "/proj" fone fone))) = Ok s /\
    (current_tool s = VNone \/
     exists ops' name input ta tb,
       (three_tools ++ [StartTool "Edit" VNone fone fone])%list
       = (ops' ++ [StartTool name input ta tb])%list /\
       current_tool s = VDict [("name", VStr name); ("input", input);
                               ("start_time", VFloat ta)]).
Proof.
  eexists. split; [vm_compute; reflexivity|].
  eapply (current_tool_invariant "abc123" "/proj" fone fone empty_store
            (started "abc123" "/proj" fone fone)
            (written empty_store (started "abc123" "/proj" fone fone))
            (three_tools ++ [StartTool "Edit" VNone fone fone]));
    vm_compute; reflexivity.
Defined.

(** ** The scenario *)



(** ** Calls that return, calls that raise *)




Section Summary.

Variable float_repr : float -> string.
Variable container_repr : pyval -> string.
Variable path_name : string -> string.


End Summary.




(** Other calls that raise: the file cannot be read; a counter of the
    stored state is no number. *)
Example end_tool_unreadable_raises :
  end_tool "Bash" true "ok" "12:00:00" fone
    {| file := Present Garbage; readable := false; writable := true |}
  = Raise OSError.
Proof. reflexivity. Qed.

Example end_tool_mistyped_raises :
  end_tool "Bash" true "ok" "12:00:00" fone mistyped_store = Raise TypeError.
Proof. reflexivity. Qed.

(** * Further properties *)

(** ** The state the manager keeps *)

(** X1 (write-through): a call that returns has left in the store
    exactly the state it returns: on a readable store [load] gives it
    back. *)
Theorem returned_state_is_stored o st s st' :
  step o st = Ok (s, st') -> readable st = true -> load st' = Ok s.
Proof.
  intros Hs Hr. destruct (step_store _ _ _ _ Hs) as [_ ->].
  now apply load_dumped.
Qed.

Lemma returned_state_is_stored_witness :
  exists s st',
    step (EndTool "Bash" true "ok" "12:00:00" fone) garbage_store = Ok (s, st') /\
    load st' = Ok s.
Proof.
  eexists. eexists. split; [vm_compute; reflexivity|].
  eapply (returned_state_is_stored (EndTool "Bash" true "ok" "12:00:00" fone)
            garbage_store); vm_compute; reflexivity.
Defined.

(** What [end_session], [start_tool] and [end_tool] make of the state
    they load, whatever its fields hold. *)
Lemma step_frame o st s' st' :
  step o st = Ok (s', st') -> is_start_session o = false ->
  exists s, load st = Ok s /\
    session_id s' = session_id s /\ project_dir s' = project_dir s /\
    start_time s' = start_time s /\
    match o with
    | EndSession _ t0 _ =>
        is_active s' = VBool false /\ end_time s' = VFloat t0 /\
        total_tools s' = total_tools s /\
        successful_tools s' = successful_tools s /\
        failed_tools s' = failed_tools s /\
        recent_tools s' = recent_tools s
    | StartTool _ _ _ _ =>
        is_active s' = is_active s /\ end_time s' = end_time s /\
        total_tools s' = total_tools s /\
        successful_tools s' = successful_tools s /\
        failed_tools s' = failed_tools s /\
        recent_tools s' = recent_tools s
    | _ => is_active s' = is_active s /\ end_time s' = end_time s
    end.
Proof.
  destruct o as [sid dir t0 t1 | reason t0 t1 | name input t0 t1
                | name success output hms t1]; cbn [step is_start_session];
    unfold end_session, start_tool, end_tool; intros H Hn;
    try discriminate Hn; peel H; apply save_returned in H;
    destruct H as [_ [-> _]].
  - exists x. split; [assumption|]. destruct x; cbn. tauto.
  - exists x. split; [assumption|]. destruct x; cbn. tauto.
  - exists x. split; [assumption|].
    destruct success; peel E1; injection E1 as <-; destruct x; cbn; tauto.
Qed.

(** X2 (frame): [end_session], [start_tool] and [end_tool] never touch
    [session_id], [project_dir] and [start_time] of the state they load;
    the two tool calls leave [is_active] and [end_time] as they are, so a
    tool is counted in an ended session too; [end_session] and
    [start_tool] leave the counters and [recent_tools] as they are. *)
Theorem calls_keep_the_rest o st s' st' :
  step o st = Ok (s', st') -> is_start_session o = false ->
  exists s, load st = Ok s /\
    session_id s' = session_id s /\ project_dir s' = project_dir s /\
    start_time s' = start_time s /\
    (is_end_session o = false ->
     is_active s' = is_active s /\ end_time s' = end_time s) /\
    (ok_call o = false -> err_call o = false ->
     total_tools s' = total_tools s /\
     successful_tools s' = successful_tools s /\
     failed_tools s' = failed_tools s /\
     recent_tools s' = recent_tools s).
Proof.
  intros Hs Hn. destruct (step_frame _ _ _ _ Hs Hn) as [s [Hl [H1 [H2 [H3 H]]]]].
  exists s. repeat (split; [assumption|]).
  destruct o as [ | | | name success output hms t1]; cbn in *.
  - discriminate.
  - split; [discriminate | tauto].
  - split; tauto.
  - split; [tauto|]. destruct success; discriminate.
Qed.

Lemma calls_keep_the_rest_witness :
  exists s' st' s,
    step (EndTool "Bash" true "ok" "12:00:00" fone) ended_store = Ok (s', st')
    /\ load ended_store = Ok s /\
    session_id s' = session_id s /\ is_active s' = is_active s.
Proof.
  destruct (calls_keep_the_rest (EndTool "Bash" true "ok" "12:00:00" fone)
              ended_store _ _ ltac:(vm_compute; reflexivity) eq_refl)
    as [s [Hl [H1 [_ [_ [H2 _]]]]]].
  do 3 eexists. split; [vm_compute; reflexivity|].
  split; [exact Hl|]. split; [exact H1 | now apply H2].
Defined.

(** ** The state as a function of the calls *)
















(** ** The summary *)




(** ** Before any session *)


Section GhostLoads.

Context {G : Type} (P : G -> SessionState -> Prop) (upd : G -> op -> G).
Hypothesis P_effect :
  forall g o s s', well_typed s = true -> P g s -> effect o s s' -> P (upd g o) s'.


End GhostLoads.








(** ** Durations that cannot be shown *)

(** X8 (errors of [duration_str]): for a state whose fields have their
    declared types and whose [start_time] is not zero, the duration is
    taken between [start_time] and the [end_time], or the clock when
    [end_time] is [None] or zero; [duration_str] raises [ValueError] when
    that difference is NaN, [OverflowError] when it is infinite, and
    returns otherwise. *)
Theorem duration_str_errors s now :
  well_typed s = true -> eq_zero (start_time s) = false ->
  exists e f,
    start_time s = VFloat f /\
    (end_time s = VFloat e /\ feqb e fzero = false \/
     e = now /\ (end_time s = VNone \/
                 exists z, end_time s = VFloat z /\ feqb z fzero = true)) /\
    match fsub e f with
    | S754_nan => duration_str s now = Raise ValueError
    | S754_infinity _ => duration_str s now = Raise OverflowError
    | _ => returns (duration_str s now)
    end.
Proof.
  intros Ht Hz. unfold duration_str. rewrite Hz.
  unfold duration_seconds, session_end.
  destruct s as [a b [ | | | f | | | ] en c d e1 g h i j];
    unfold well_typed in Ht; cbn in Ht |- *;
    repeat rewrite ?andb_false_r, ?andb_false_l in Ht; try discriminate Ht.
  assert (Hshow : forall d0 : Z,
             returns (if d0 <? 60 then Ok (str_of_Z d0 ++ "s")%string
                      else if d0 <? 3600
                           then Ok (str_of_Z (d0 / 60) ++ "m "
                                    ++ str_of_Z (d0 mod 60) ++ "s")%string
                           else Ok (str_of_Z (d0 / 3600) ++ "h "
                                    ++ str_of_Z (d0 mod 3600 / 60) ++ "m")%string)).
  { intros d0. destruct (d0 <? 60); [now eexists|].
    destruct (d0 <? 3600); now eexists. }
  destruct en as [ | | | x | | | ];
    repeat rewrite ?andb_false_r, ?andb_false_l in Ht; try discriminate Ht.
  - exists now, f. split; [reflexivity|]. split; [right; auto|].
    cbn. destruct (fsub now f); cbn;
        first [reflexivity | apply Hshow | now eexists].
  - cbn [truthy end_time]. destruct (feqb x fzero) eqn:Hx; cbn [negb].
    + exists now, f. split; [reflexivity|].
      split; [right; split; [reflexivity|]; right; exists x; now split|].
      cbn. destruct (fsub now f); cbn;
        first [reflexivity | apply Hshow | now eexists].
    + exists x, f. split; [reflexivity|]. split; [left; auto|].
      cbn. destruct (fsub x f); cbn;
        first [reflexivity | apply Hshow | now eexists].
Qed.

Lemma duration_str_errors_witness :
  duration_str nan_started fone = Raise ValueError.
Proof.
  destruct (duration_str_errors nan_started fone eq_refl eq_refl)
    as [e [f [Hf [He H]]]].
  injection Hf as <-.
  replace (fsub e S754_nan) with S754_nan in H; [exact H|].
  now destruct e.
Defined.

(** ** The record of a finished tool *)

Lemma substring_prefix_short n s :
  (String.length s <= n)%nat -> substring 0 n s = s.
Proof.
  revert s. induction n as [|n IH]; intros [|c s]; cbn; intros H;
    try reflexivity; try lia.
  f_equal. apply IH. lia.
Qed.

Lemma substring_prefix_long n s :
  (n <= String.length s)%nat ->
  String.length (substring 0 n s) = n /\ prefix (substring 0 n s) s = true.
Proof.
  revert s. induction n as [|n IH]; intros [|c s]; cbn; intros H;
    try (split; reflexivity); try lia.
  destruct (IH s) as [H1 H2]; [lia|]. rewrite H1.
  split; [reflexivity|].
  destruct (ascii_dec c c) as [_|Hc]; [exact H2 | now contradiction Hc].
Qed.

Lemma last_item_snoc {A : Type} (l : list A) x : last_item (l ++ [x]) = Some x.
Proof. unfold last_item. now rewrite rev_app_distr. Qed.

Lemma last_item_last_n {A : Type} n (l : list A) x :
  last_item (last_n (S n) (l ++ [x])) = Some x.
Proof.
  unfold last_n. rewrite length_app, skipn_app. cbn [List.length].
  replace (List.length l + 1 - S n - List.length l)%nat with 0%nat by lia.
  cbn [skipn]. apply last_item_snoc.
Qed.

(** X9 (what [end_tool] records): an [end_tool] that returns has put at
    the end of [recent_tools] a record with the name, the success flag
    and the time it was given, and with the output as it is when it has
    at most 100 characters, else its first 100 characters. *)
Theorem end_tool_records name success output hms t st s st' :
  end_tool name success output hms t st = Ok (s, st') ->
  exists l r out,
    recent_tools s = VList l /\ last_item l = Some r /\
    py_getitem r "name" = Ok (VStr name) /\
    py_getitem r "success" = Ok (VBool success) /\
    py_getitem r "time" = Ok (VStr hms) /\
    py_getitem r "output" = Ok (VStr out) /\
    ((String.length output <= 100)%nat -> out = output) /\
    ((100 <= String.length output)%nat ->
     String.length out = 100%nat /\ prefix out output = true).
Proof.
  unfold end_tool. intros H. peel H. apply save_returned in H.
  destruct H as [_ [-> _]].
  destruct (recent_tools x1) as [ | | | | | l | ] eqn:Hl; try discriminate E2.
  injection E2 as <-.
  exists (last_n 10 (l ++ [tool_record name success hms output])),
         (tool_record name success hms output),
         (if truthy (VStr output) then substring 0 100 output else EmptyString).
  split; [now destruct x1|]. split; [apply last_item_last_n|].
  repeat (split; [reflexivity|]).
  destruct output as [|c output]; cbn [truthy String.eqb negb].
  - split; [reflexivity | cbn; lia].
  - split; [apply substring_prefix_short | apply substring_prefix_long].
Qed.

Lemma end_tool_records_witness :
  exists s st' l r,
    end_tool "Bash" true "ok" "12:00:00" fone empty_store = Ok (s, st') /\
    recent_tools s = VList l /\ last_item l = Some r /\
    py_getitem r "output" = Ok (VStr "ok").
Proof.
  destruct (end_tool "Bash" true "ok" "12:00:00" fone empty_store)
    as [[s st']|e] eqn:He; [|vm_compute in He; discriminate He].
  destruct (end_tool_records _ _ _ _ _ _ _ _ He)
    as [l [r [out [Hl [Hr [_ [_ [_ [Ho [Hshort _]]]]]]]]]].
  rewrite (Hshort ltac:(cbn; lia)) in Ho.
  exists s, st', l, r. split; [reflexivity|]. split; [exact Hl|].
  split; [exact Hr | exact Ho].
Defined.

(** ** The command handlers *)

Import TelegramBot.










Section TaskLines.

Variable float_repr : float -> string.
Variable container_repr : pyval -> string.


End TaskLines.



(** X12 ([/status] and a tool without a name): where the stored
    [current_tool] is a dict that is not empty and has no ["name"], with
    a [session_id] that is a string and not empty and a duration that
    can be shown, [/status] returns and shows the tool as Unknown, while
    [get_status_summary] raises [KeyError]. *)
Theorem status_tolerates_nameless_tool float_repr container_repr path_name
    now st s sid d dur :
  load st = Ok s ->
  session_id s = VStr sid -> sid <> EmptyString ->
  is_str (project_dir s) = true ->
  current_tool s = VDict d -> d <> [] -> dict_get "name" d = None ->
  duration_str s now = Ok dur ->
  (exists message,
     status_command float_repr container_repr now st
     = Ok (message ++ newline ++ newline
           ++ "<b>Currently Running:</b> Unknown")%string) /\
  get_status_summary float_repr container_repr path_name now st = Raise KeyError.
Proof.
  intros Hl Hs Hsid Hp Hc Hd Hn Hdur.
  apply String.eqb_neq in Hsid.
  unfold status_command, get_status_summary. rewrite Hl. cbn [bind].
  rewrite Hs, Hc, Hdur. cbn [truthy py_prefix bind]. rewrite Hsid. cbn [negb bind].
  destruct d as [|kv d]; [contradiction|]. cbn [py_get py_getitem].
  rewrite Hn. cbn [bind]. split; [now eexists|].
  destruct (project_dir s) as [ | | | | pd | | ]; try discriminate Hp.
  cbn [truthy]. now destruct (negb (String.eqb pd EmptyString)).
Qed.

Lemma status_tolerates_nameless_tool_witness :
  (exists message,
     status_command (fun _ => "nan") (fun _ => "[]") fone nameless_tool_store
     = Ok (message ++ newline ++ newline
           ++ "<b>Currently Running:</b> Unknown")%string) /\
  get_status_summary (fun _ => "nan") (fun _ => "[]") (fun p => p) fone
    nameless_tool_store
  = Raise KeyError.
Proof.
  eapply (status_tolerates_nameless_tool (fun _ => "nan") (fun _ => "[]")
            (fun p => p) fone nameless_tool_store _ "abc123"
            [("pid", VInt 7)] "N/A");
    try (vm_compute; reflexivity); discriminate.
Defined.

(** ** Installing the hooks *)

Import InstallHooks.

Lemma has_key_snoc k d kv :
  has_key k (d ++ [kv]) = has_key k d || String.eqb (fst kv) k.
Proof. unfold has_key. rewrite existsb_app. cbn. now rewrite orb_false_r. Qed.

Lemma dict_get_has_key k d : has_key k d = false -> dict_get k d = None.
Proof.
  induction d as [|kv d IH] using rev_ind; [reflexivity|].
  rewrite has_key_snoc, dict_get_snoc. intros H.
  apply orb_false_elim in H. destruct H as [H1 H2]. rewrite H2. now apply IH.
Qed.








Lemma dict_set_twice k v d : dict_set k v (dict_set k v d) = dict_set k v d.
Proof.
  assert (Hin : has_key k (dict_set k v d) = true).
  { unfold dict_set. fold (has_key k d). destruct (has_key k d) eqn:Hk.
    - unfold has_key in *. rewrite existsb_exists in *.
      destruct Hk as [kv [Hin E]]. exists (k, v). split.
      + apply in_map_iff. exists kv. now rewrite E.
      + apply String.eqb_refl.
    - rewrite has_key_snoc. cbn. now rewrite String.eqb_refl, orb_true_r. }
  unfold dict_set at 1. fold (has_key k (dict_set k v d)). rewrite Hin.
  unfold dict_set. fold (has_key k d). destruct (has_key k d) eqn:Hk.
  - rewrite map_map. apply map_ext. intros kv.
    destruct (String.eqb (fst kv) k) eqn:E; cbn [fst]; [|now rewrite E].
    now rewrite String.eqb_refl.
  - rewrite map_app. cbn. rewrite String.eqb_refl. f_equal.
    rewrite <- (map_id d) at 2. apply map_ext_in. intros kv Hkv.
    destruct (String.eqb (fst kv) k) eqn:E; [|reflexivity].
    exfalso. assert (has_key k d = true); [|congruence].
    unfold has_key. apply existsb_exists. now exists kv.
Qed.

Lemma install_reads st d :
  readable st = true -> settings_of st = Some d ->
  (if exists_ st then read_settings st else Ok (VDict [])) = Ok (VDict d).
Proof.
  unfold settings_of, exists_, read_settings, open_read. intros Hr.
  destruct (file st) as [|[ | | [ | | | | | | d']]]; try discriminate.
  - now intros [= <-].
  - rewrite Hr. now intros [= <-].
Qed.









(** X17 (installing twice): once [install_hooks] has returned true, a
    second [install_hooks] for the same hook script, answered y, returns
    true and leaves the file as it is. *)
Theorem install_twice hook_path answer st st1 d :
  readable st = true -> settings_of st = Some d ->
  install_hooks hook_path answer st = Ok (true, st1) ->
  install_hooks hook_path "y" st1 = Ok (true, st1).
Proof.
  intros Hr Hd H. unfold install_hooks in H.
  rewrite (install_reads st d Hr Hd) in H. cbn [bind py_contains] in H.
  destruct (existsb _ d && negb (String.eqb answer "y")); [discriminate H|].
  cbn [py_setitem bind] in H. unfold write_settings in H.
  destruct (writable st) eqn:Hw; [|discriminate H].
  cbn [bind] in H. injection H as <-.
  unfold install_hooks, exists_, read_settings, open_read.
  cbn [file readable writable]. rewrite Hr. cbn [bind json_load py_contains].
  rewrite String.eqb_refl, andb_false_r. cbn [py_setitem bind].
  unfold write_settings. cbn [file readable writable bind].
  now rewrite dict_set_twice.
Qed.

Lemma install_twice_witness :
  exists st1,
    install_hooks "/opt/bot/telegram_hook.py" "n" plain_settings_store
    = Ok (true, st1) /\
    install_hooks "/opt/bot/telegram_hook.py" "y" st1 = Ok (true, st1).
Proof.
  eexists. split; [vm_compute; reflexivity|].
  eapply (install_twice "/opt/bot/telegram_hook.py" "n" plain_settings_store);
    vm_compute; reflexivity.
Defined.
